(** * Stopwatch on a character LCD (Lab_4-lcd/src/main.c)

    A shallow embedding of the firmware of [src/Lab_4-lcd/src/main.c]:
    the start-up sequence of [main], the stopwatch handler
    [ISR(TIMER2_OVF_vect)] and the progress-bar handler
    [ISR(TIMER1_OVF_vect)].

    - [uint8_t] and [uint16_t] values are integers of [Z] with the
      wrap-around written out ([u8], [u16]).
    - The function-local [static] variables of a handler are a record
      that is passed in and returned.
    - The display driver (lcd.h), the timer macros (timer.h) and [sei] are
      outside the file; every call to them is recorded as an [event], in
      program order.
    - The 2-byte conversion buffer [string] is modelled by the digits
      [itoa] stores together with the number of bytes stored past its end.
    - The display is a cursor and the characters shown by column and row;
      an interrupt runs one handler to completion on its statics and sends
      its calls to that display. *)

From Stdlib Require Import String Ascii ZArith List Bool Lia.
Import ListNotations.
Open Scope Z_scope.

(** ** Fixed-width integers *)

Definition u8 (x : Z) : Z := x mod 256.
Definition u16 (x : Z) : Z := x mod 65536.

(** Conversion of a 16-bit pattern to the 16-bit [int] of avr-gcc. *)
Definition int16 (x : Z) : Z :=
  let y := x mod 65536 in if y <? 32768 then y else y - 65536.

(** A character code as a [char]. *)
Definition chr (n : Z) : ascii := ascii_of_N (Z.to_N (n mod 256)).

(** ** Calls that leave the program *)

Inductive timer : Type := TIM1 | TIM2.

(** The overflow periods the macros of timer.h are named after. *)
Inductive period : Type := OVF_16MS | OVF_1SEC.

Inductive event : Type :=
| Init (dispAttr : Z)              (* lcd_init(dispAttr)  *)
| Command (cmd : Z)                (* lcd_command(cmd)    *)
| Data (data : Z)                  (* lcd_data(data)      *)
| Gotoxy (x y : Z)                 (* lcd_gotoxy(x, y)    *)
| Putc (c : ascii)                 (* lcd_putc(c)         *)
| Puts (s : list ascii)            (* lcd_puts(s)         *)
| TimOvf (t : timer) (p : period)  (* TIMt_OVF_p          *)
| TimOvfEnable (t : timer)         (* TIMt_OVF_ENABLE     *)
| Sei.                             (* sei()               *)

(** What a run of a handler leaves behind: the calls it made and the
    number of bytes [itoa] stored beyond the end of [string]. *)
Record output : Type := mkOutput { calls : list event; overrun : Z }.

Definition silent : output := mkOutput [] 0.

Definition join (o1 o2 : output) : output :=
  mkOutput (calls o1 ++ calls o2) (overrun o1 + overrun o2).

(** A computation with result [A] that makes calls on the way. *)
Definition M (A : Type) : Type := (A * output)%type.

Definition ret {A} (a : A) : M A := (a, silent).

Definition bind {A B} (m : M A) (f : A -> M B) : M B :=
  let '(a, o1) := m in
  let '(b, o2) := f a in
  (b, join o1 o2).

Declare Scope lcd_scope.
Delimit Scope lcd_scope with lcd.
Notation "x <- m ;; k" := (bind m (fun x => k))
  (at level 61, m at next level, right associativity) : lcd_scope.
Notation "m ;; k" := (bind m (fun _ => k))
  (at level 61, right associativity) : lcd_scope.

Definition emit (e : event) : M unit := (tt, mkOutput [e] 0).

Definition lcd_gotoxy (x y : Z) : M unit := emit (Gotoxy x y).
Definition lcd_putc (c : ascii) : M unit := emit (Putc c).
Definition lcd_puts (s : list ascii) : M unit := emit (Puts s).

(** ** Decimal conversion into [char string[2]] *)

(** The digits of [v], least significant first: the division loop of
    avr-libc's [itoa], which stores one digit and stops when the quotient
    is zero. *)
Fixpoint digits_rev (fuel : nat) (v : Z) : list ascii :=
  match fuel with
  | O => []
  | S fuel =>
      chr (48 + v mod 10) ::
      (if v / 10 =? 0 then [] else digits_rev fuel (v / 10))
  end.

(** [itoa(v, s, 10)] for a 16-bit [int]: an optional minus sign and at most
    five digits. *)
Definition itoa10 (v : Z) : list ascii :=
  if v <? 0 then "-"%char :: rev (digits_rev 5 (- v))
  else rev (digits_rev 5 v).

(** Size of [char string[2]] (main.c line 146). *)
Definition string_size : Z := 2.

(** Bytes [itoa] stores for [v]: its characters and the terminating NUL. *)
Definition itoa_bytes (v : Z) : Z := Z.of_nat (length (itoa10 v)) + 1.

(** [itoa(v, string, 10)]: the text later read back from [string], and the
    bytes that did not fit into it. *)
Definition itoa (v : Z) : M (list ascii) :=
  (itoa10 (int16 v), mkOutput [] (Z.max 0 (itoa_bytes (int16 v) - string_size))).

(** ** The stopwatch handler, ISR(TIMER2_OVF_vect) *)

(** Its [static] variables (main.c lines 141-145). *)
Record clock : Type := mkClock {
  no_of_overflows : Z;
  tenths : Z;
  seconds : Z;
  minutes : Z;
  secPwr : Z
}.

Definition clock0 : clock := mkClock 0 0 0 0 0.

Definition set_no_of_overflows (v : Z) (st : clock) : clock :=
  mkClock v (tenths st) (seconds st) (minutes st) (secPwr st).
Definition set_tenths (v : Z) (st : clock) : clock :=
  mkClock (no_of_overflows st) v (seconds st) (minutes st) (secPwr st).
Definition set_seconds (v : Z) (st : clock) : clock :=
  mkClock (no_of_overflows st) (tenths st) v (minutes st) (secPwr st).
Definition set_minutes (v : Z) (st : clock) : clock :=
  mkClock (no_of_overflows st) (tenths st) (seconds st) v (secPwr st).
Definition set_secPwr (v : Z) (st : clock) : clock :=
  mkClock (no_of_overflows st) (tenths st) (seconds st) (minutes st) v.

(** The labels of [switch (seconds)] (lines 163-176). *)
Inductive label : Type := case_0 | case_60 | default.

Definition switch (seconds : Z) : label :=
  if seconds =? 0 then case_0
  else if seconds =? 60 then case_60
  else default.

(** Lines 156-188: counting. [seconds * seconds] is computed in [int] and
    stored in a [uint16_t]; the square of an [uint8_t] is below 65536. *)
Definition count (st : clock) : clock :=
  let st := set_tenths (u8 (tenths st + 1)) st in
  let st :=
    if 9 <? tenths st then
      let st := set_tenths 0 st in
      let st := set_seconds (u8 (seconds st + 1)) st in
      match switch (seconds st) with
      | case_0 => set_secPwr 0 st
      | case_60 => set_secPwr 0 st
      | default => set_secPwr (u16 (seconds st * seconds st)) st
      end
    else st in
  let st :=
    if 59 <? seconds st then
      let st := set_seconds 0 st in
      set_minutes (u8 (minutes st + 1)) st
    else st in
  let st := if 59 <? minutes st then set_minutes 0 st else st in
  st.

Open Scope lcd_scope.

(** Lines 191-225: rendering. *)
Definition render (st : clock) : M unit :=
  string <- itoa (minutes st) ;;
  lcd_gotoxy 1 0 ;;
  (if minutes st <? 60 then
     lcd_putc "0" ;; lcd_puts string
   else
     lcd_puts string) ;;
  lcd_putc ":" ;;
  string <- itoa (seconds st) ;;
  (if seconds st <? 10 then
     lcd_putc "0" ;; lcd_puts string
   else
     lcd_puts string) ;;
  lcd_putc "." ;;
  string <- itoa (tenths st) ;;
  lcd_puts string ;;
  lcd_gotoxy 12 0 ;;
  string <- itoa (secPwr st) ;;
  lcd_puts string.

(** Lines 149-227: the whole handler. *)
Definition TIMER2_OVF_vect (st : clock) : M clock :=
  let st := set_no_of_overflows (u8 (no_of_overflows st + 1)) st in
  if 6 <=? no_of_overflows st then
    let st := set_no_of_overflows 0 st in
    let st := count st in
    render st ;; ret st
  else
    ret st.

(** The statics after [n] invocations. *)
Fixpoint ticks (n : nat) (st : clock) : clock :=
  match n with
  | O => st
  | S n => fst (TIMER2_OVF_vect (ticks n st))
  end.

(** ** Loops over an [uint8_t] counter *)

(** [for (i = i0; i < n; i++) body(i);] with [i] an [uint8_t]: the final
    value of [i] and the calls made, or [None] when [fuel] iterations were
    not enough to leave the loop. *)
Fixpoint for_u8 (fuel : nat) (i n : Z) (body : Z -> M unit) : option (M Z) :=
  match fuel with
  | O => None
  | S fuel =>
      if i <? n then
        match for_u8 fuel (u8 (i + 1)) n body with
        | Some rest => Some (body i ;; rest)
        | None => None
        end
      else Some (ret i)
  end.

(** An [uint8_t] counter takes at most 256 values below a bound. *)
Definition u8_fuel : nat := 257.

(** ** The progress-bar handler, ISR(TIMER1_OVF_vect) *)

(** Its [static] variables (main.c lines 232 and 241). *)
Record bar : Type := mkBar { prgrsBarLgth : Z; i : Z }.

Definition bar0 : bar := mkBar 0 0.

(** Lines 232-246. *)
Definition TIMER1_OVF_vect (st : bar) : option (M bar) :=
  let st := if 4 <? prgrsBarLgth st then mkBar 0 (i st) else st in
  let st := mkBar (u8 (prgrsBarLgth st + 1)) (i st) in
  match for_u8 u8_fuel 0 (prgrsBarLgth st) (fun _ => lcd_putc (chr 255)) with
  | Some loop =>
      Some (lcd_gotoxy 0 1 ;;
            i' <- loop ;;
            ret (mkBar (prgrsBarLgth st) i'))
  | None => None
  end.

(** The statics after [n] invocations. *)
Fixpoint bar_ticks (n : nat) (st : bar) : option bar :=
  match n with
  | O => Some st
  | S n =>
      match bar_ticks n st with
      | Some st' => option_map fst (TIMER1_OVF_vect st')
      | None => None
      end
  end.

(** ** The start-up sequence, main *)

Definition N_CHARS : Z := 6.

(** The initialisers of [customChar] (lines 55-86). *)
Definition customChar_init : list Z :=
  [ 16; 16; 16; 16; 16; 16; 16; 16;
    24; 24; 24; 24; 24; 24; 24; 24;
    28; 28; 28; 28; 28; 28; 28; 28;
    30; 30; 30; 30; 30; 30; 30; 30 ].

(** [uint8_t customChar[N_CHARS*8] = { ... }]: the elements without an
    initialiser are zero. *)
Definition customChar : list Z :=
  customChar_init ++
  repeat 0 (Z.to_nat (N_CHARS * 8) - List.length customChar_init).

Section Startup.

(** Constants of lcd.h. *)
Variables LCD_DISP_ON LCD_CGRAM LCD_DDRAM : Z.

(** Lines 50-119: everything [main] does before it enters the empty
    loop. *)
Definition main : option (M unit) :=
  match for_u8 u8_fuel 0 (N_CHARS * 8)
          (fun i => emit (Data (nth (Z.to_nat i) customChar 0))) with
  | Some upload =>
      Some (emit (Init LCD_DISP_ON) ;;
            emit (Command (Z.shiftl 1 LCD_CGRAM)) ;;
            upload ;;
            emit (Command (Z.shiftl 1 LCD_DDRAM)) ;;
            lcd_gotoxy 7 1 ;;
            lcd_putc (chr 0) ;;
            lcd_putc (chr 1) ;;
            lcd_putc (chr 2) ;;
            lcd_putc (chr 3) ;;
            emit (TimOvf TIM1 OVF_1SEC) ;;
            emit (TimOvfEnable TIM1) ;;
            emit (TimOvf TIM2 OVF_16MS) ;;
            emit (TimOvfEnable TIM2) ;;
            emit Sei)
  | None => None
  end.

End Startup.

(** ** Reading a sequence of calls *)

(** A cell of the display: a column, a row and the character written
    there. *)
Definition cell : Type := (Z * Z * ascii)%type.

(** The cells a text occupies from column [x] of row [y] on. *)
Fixpoint typed (x y : Z) (s : list ascii) : list cell :=
  match s with
  | [] => []
  | c :: s => (x, y, c) :: typed (x + 1) y s
  end.

(** Modelled from the spec: the Display Port of section 6, whose driver
    (lcd.h, lcd.c) is not among the sources.  [move_cursor(column, row)]
    positions the write cursor; [write_char] writes one character at the
    cursor and advances it; [write_string] writes its characters one after
    the other. *)
Fixpoint cells (x y : Z) (tr : list event) : list cell :=
  match tr with
  | [] => []
  | Gotoxy x' y' :: tr => cells x' y' tr
  | Putc c :: tr => (x, y, c) :: cells (x + 1) y tr
  | Puts s :: tr => typed x y s ++ cells (x + Z.of_nat (List.length s)) y tr
  | _ :: tr => cells x y tr
  end.

(** The cells written by a handler, which positions the cursor itself. *)
Definition written (o : output) : list cell := cells 0 0 (calls o).

(** The bytes sent with [lcd_data]. *)
Fixpoint data_bytes (tr : list event) : list Z :=
  match tr with
  | [] => []
  | Data d :: tr => d :: data_bytes tr
  | _ :: tr => data_bytes tr
  end.

(** The calls made before interrupts are enabled. *)
Fixpoint before_sei (tr : list event) : list event :=
  match tr with
  | [] => []
  | Sei :: _ => []
  | e :: tr => e :: before_sei tr
  end.

(** The argument of the last [lcd_command], which selects the memory the
    following [lcd_data] and [lcd_putc] calls address. *)
Fixpoint last_command (cur : option Z) (tr : list event) : option Z :=
  match tr with
  | [] => cur
  | Command c :: tr => last_command (Some c) tr
  | _ :: tr => last_command cur tr
  end.

(** The period a timer was last configured with. *)
Fixpoint configured (cur : option period) (t : timer) (tr : list event)
  : option period :=
  match tr with
  | [] => cur
  | TimOvf TIM1 p :: tr =>
      configured (match t with TIM1 => Some p | TIM2 => cur end) t tr
  | TimOvf TIM2 p :: tr =>
      configured (match t with TIM2 => Some p | TIM1 => cur end) t tr
  | _ :: tr => configured cur t tr
  end.

(** Whether the overflow interrupt of a timer was enabled. *)
Fixpoint enabled (t : timer) (tr : list event) : bool :=
  match tr with
  | [] => false
  | TimOvfEnable TIM1 :: tr =>
      match t with TIM1 => true | TIM2 => enabled t tr end
  | TimOvfEnable TIM2 :: tr =>
      match t with TIM2 => true | TIM1 => enabled t tr end
  | _ :: tr => enabled t tr
  end.

(** The period with which an enabled timer invokes its handler. *)
Definition armed (t : timer) (tr : list event) : option period :=
  if enabled t tr then configured None t tr else None.

(** The two state machines of the specification. *)
Inductive machine : Type := Clock | Progress.

(** All statics of the program. *)
Record statics : Type := mkStatics { stopwatch : clock; progress : bar }.

(** The handler attached to the overflow vector of each timer:
    [ISR(TIMER1_OVF_vect)] and [ISR(TIMER2_OVF_vect)]. *)
Definition ISR (t : timer) (s : statics) : option (M statics) :=
  match t with
  | TIM1 =>
      match TIMER1_OVF_vect (progress s) with
      | Some (b, o) => Some (mkStatics (stopwatch s) b, o)
      | None => None
      end
  | TIM2 =>
      let '(c, o) := TIMER2_OVF_vect (stopwatch s) in
      Some (mkStatics c (progress s), o)
  end.

(** A timer drives a state machine when its handler is that machine's
    handler on that machine's statics and leaves the other statics alone. *)
Definition drives (t : timer) (m : machine) : Prop :=
  forall s : statics,
    ISR t s =
    match m with
    | Clock =>
        Some (mkStatics (fst (TIMER2_OVF_vect (stopwatch s))) (progress s),
              snd (TIMER2_OVF_vect (stopwatch s)))
    | Progress =>
        option_map
          (fun r : M bar => (mkStatics (stopwatch s) (fst r), snd r))
          (TIMER1_OVF_vect (progress s))
    end.

(** The calls of the start-up sequence that follow the glyph upload and the
    return to DDRAM addressing, up to [sei]. *)
Definition after_upload : list event :=
  [ Gotoxy 7 1; Putc (chr 0); Putc (chr 1); Putc (chr 2); Putc (chr 3);
    TimOvf TIM1 OVF_1SEC; TimOvfEnable TIM1;
    TimOvf TIM2 OVF_16MS; TimOvfEnable TIM2 ].

(** The value of [seconds] that [switch] examines at line 163 in the course
    of [count st], when that line is reached. *)
Definition scrutinee (st : clock) : option Z :=
  let st := set_tenths (u8 (tenths st + 1)) st in
  if 9 <? tenths st then
    let st := set_tenths 0 st in
    let st := set_seconds (u8 (seconds st + 1)) st in
    Some (seconds st)
  else None.

(** The ranges of section 3 of the specification, and the cached square. *)
Definition in_range (st : clock) : Prop :=
  0 <= no_of_overflows st <= 5 /\
  0 <= tenths st <= 9 /\
  0 <= seconds st <= 59 /\
  0 <= minutes st <= 59 /\
  secPwr st = seconds st * seconds st.

(** ** Elapsed time *)

(** The statics of the stopwatch that has counted [e] tenths of a second,
    with the overflow counter at [o]. *)
Definition clock_at (o e : Z) : clock :=
  let s := (e / 10) mod 60 in
  mkClock o (e mod 10) s ((e / 600) mod 60) (s * s).

(** ** Decimal text *)

(** The decimal digit [d] as a character. *)
Definition digit (d : Z) : ascii := chr (48 + d).

(** A value below 100 in two decimal digits. *)
Definition two_digits (v : Z) : list ascii := [digit (v / 10); digit (v mod 10)].

(** ** The display and the interrupts *)

(** The characters on the display, by column and row. *)
Definition screen : Type := Z -> Z -> option ascii.

Definition put (x y : Z) (c : ascii) (scr : screen) : screen :=
  fun x' y' => if (x' =? x) && (y' =? y) then Some c else scr x' y'.

(** The display after the cells [cs] are written in order. *)
Fixpoint paint (cs : list cell) (scr : screen) : screen :=
  match cs with
  | [] => scr
  | (x, y, c) :: cs => paint cs (put x y c scr)
  end.

(** Modelled from the spec: the state of the Display Port of section 6,
    whose driver (lcd.h, lcd.c) is not among the sources: the write cursor
    and the characters shown. *)
Record lcd : Type := mkLcd { cursor_x : Z; cursor_y : Z; shown : screen }.

(** [write_string]: each character goes to the cursor, which advances. *)
Fixpoint lcd_type (s : list ascii) (l : lcd) : lcd :=
  match s with
  | [] => l
  | c :: s =>
      lcd_type s (mkLcd (cursor_x l + 1) (cursor_y l)
                        (put (cursor_x l) (cursor_y l) c (shown l)))
  end.

(** The display after a sequence of calls. *)
Fixpoint lcd_exec (tr : list event) (l : lcd) : lcd :=
  match tr with
  | [] => l
  | Gotoxy x y :: tr => lcd_exec tr (mkLcd x y (shown l))
  | Putc c :: tr => lcd_exec tr (lcd_type [c] l)
  | Puts s :: tr => lcd_exec tr (lcd_type s l)
  | _ :: tr => lcd_exec tr l
  end.

(** The statics of both handlers and the display they share. *)
Record system : Type := mkSystem { mem : statics; display : lcd }.

(** One overflow interrupt: the handler runs to completion on its statics
    and its calls reach the display. *)
Definition interrupt (t : timer) (sys : system) : option system :=
  match ISR t (mem sys) with
  | Some (s, o) => Some (mkSystem s (lcd_exec (calls o) (display sys)))
  | None => None
  end.

(** A sequence of overflow interrupts, in the order they are served. *)
Fixpoint run (sched : list timer) (sys : system) : option system :=
  match sched with
  | [] => Some sys
  | t :: sched =>
      match interrupt t sys with
      | Some sys' => run sched sys'
      | None => None
      end
  end.

(** How often a timer occurs in a sequence of interrupts. *)
Fixpoint fired (t : timer) (sched : list timer) : nat :=
  match sched with
  | [] => O
  | TIM1 :: sched =>
      match t with TIM1 => S (fired t sched) | TIM2 => fired t sched end
  | TIM2 :: sched =>
      match t with TIM2 => S (fired t sched) | TIM1 => fired t sched end
  end.

(** The text [s] stands on the display from column [x] of row [y] on. *)
Definition shows (scr : screen) (x y : Z) (s : list ascii) : Prop :=
  forall j : nat,
    (j < List.length s)%nat -> scr (x + Z.of_nat j) y = nth_error s j.

(** The system when [main] enters its loop: zeroed statics, and the display
    as the start-up calls leave it. *)
Definition booted (LCD_DISP_ON LCD_CGRAM LCD_DDRAM : Z) (l : lcd)
  : option system :=
  match main LCD_DISP_ON LCD_CGRAM LCD_DDRAM with
  | Some (_, o) =>
      Some (mkSystem (mkStatics clock0 bar0) (lcd_exec (calls o) l))
  | None => None
  end.

(** The text of the stopwatch as [render] writes it with the counters in
    their ranges. *)
Definition clock_text (st : clock) : list ascii :=
  (if minutes st <? 10 then [] else ["0"%char]) ++
  two_digits (minutes st) ++
  ":"%char :: two_digits (seconds st) ++
  ["."%char; digit (tenths st)].

(** The cells of the display the two handlers write to: columns 1 to 15 of
    row 0 and columns 0 to 4 of row 1. *)
Definition region (x y : Z) : bool :=
  ((y =? 0) && (1 <=? x) && (x <=? 15)) ||
  ((y =? 1) && (0 <=? x) && (x <=? 4)).

(** What holds of the system after [k1] progress-bar interrupts and [k2]
    stopwatch interrupts, in any order, on a display that started as [l0]. *)
Definition invariant (l0 : lcd) (k1 k2 : nat) (sys : system) : Prop :=
  stopwatch (mem sys) = ticks k2 clock0 /\
  bar_ticks k1 bar0 = Some (progress (mem sys)) /\
  ((6 <= k2)%nat ->
   shows (shown (display sys)) 1 0 (clock_text (stopwatch (mem sys))) /\
   shows (shown (display sys)) 12 0
         (itoa10 (int16 (secPwr (stopwatch (mem sys)))))) /\
  (forall x : Z,
     0 <= x < Z.min (Z.of_nat k1) 5 ->
     shown (display sys) x 1 = Some (chr 255)) /\
  (forall x y : Z,
     region x y = false -> shown (display sys) x y = shown l0 x y).

(** The system at reset: zeroed statics and a display in state [l]. *)
Definition reset (l : lcd) : system := mkSystem (mkStatics clock0 bar0) l.

(** * Properties *)

(** ** Arithmetic and the call log *)

Lemma u8_small (x : Z) : 0 <= x < 256 -> u8 x = x.
Proof. intros H. unfold u8. now apply Z.mod_small. Qed.

Lemma u16_small (x : Z) : 0 <= x < 65536 -> u16 x = x.
Proof. intros H. unfold u16. now apply Z.mod_small. Qed.

Lemma join_silent_r (o : output) : join o silent = o.
Proof.
  destruct o as [tr n]. unfold join, silent. simpl.
  now rewrite app_nil_r, Z.add_0_r.
Qed.

(** ** The stopwatch handler *)

(** The handler either counts, renders and clears its overflow counter, or
    only advances the overflow counter. *)
Lemma TIMER2_OVF_vect_eq (st : clock) :
  TIMER2_OVF_vect st =
  if 6 <=? u8 (no_of_overflows st + 1) then
    let st' := count (set_no_of_overflows 0 st) in (st', snd (render st'))
  else (set_no_of_overflows (u8 (no_of_overflows st + 1)) st, silent).
Proof.
  unfold TIMER2_OVF_vect. cbn [no_of_overflows set_no_of_overflows].
  destruct (6 <=? u8 (no_of_overflows st + 1)); [|reflexivity].
  destruct st as [o t s m p]. unfold set_no_of_overflows. simpl.
  unfold bind, ret.
  destruct (render _) as [[] out]. simpl. now rewrite join_silent_r.
Qed.

(** Case analysis along the comparisons of [count], discarding the cases
    the ranges exclude. *)
Ltac branches :=
  repeat (cbn [no_of_overflows tenths seconds minutes secPwr] in *;
          rewrite ?u8_small in * by lia;
          match goal with
          | |- context [?a <? ?b] => destruct (Z.ltb_spec a b); try lia
          | |- context [?a =? ?b] => destruct (Z.eqb_spec a b); try lia
          end);
  cbn [no_of_overflows tenths seconds minutes secPwr] in *;
  rewrite ?u8_small in * by lia.

(** [count] on counters within their ranges, as one case distinction. *)
Lemma count_eq (st : clock) :
  0 <= tenths st <= 9 -> 0 <= seconds st <= 59 -> 0 <= minutes st <= 59 ->
  count st =
  if tenths st <? 9 then set_tenths (tenths st + 1) st
  else
    let s := seconds st + 1 in
    if seconds st <? 59 then
      mkClock (no_of_overflows st) 0 s (minutes st) (s * s)
    else if minutes st <? 59 then
      mkClock (no_of_overflows st) 0 0 (minutes st + 1) 0
    else mkClock (no_of_overflows st) 0 0 0 0.
Proof.
  destruct st as [o t s m p]. simpl. intros Ht Hs Hm.
  unfold count, switch, set_tenths, set_seconds, set_minutes, set_secPwr.
  branches; try lia; try reflexivity.
  rewrite u16_small by nia. reflexivity.
Qed.

Lemma count_in_range (st : clock) :
  in_range st -> in_range (count st).
Proof.
  intros (Ho & Ht & Hs & Hm & Hp). rewrite count_eq by assumption.
  destruct st as [o t s m p]. unfold in_range, set_tenths.
  branches; lia.
Qed.

Lemma tick_in_range (st : clock) :
  in_range st -> in_range (fst (TIMER2_OVF_vect st)).
Proof.
  intros H. rewrite TIMER2_OVF_vect_eq.
  assert (Ho : 0 <= no_of_overflows st <= 5) by apply H.
  rewrite (u8_small (no_of_overflows st + 1)) by lia.
  destruct (Z.leb_spec 6 (no_of_overflows st + 1)); simpl.
  - apply count_in_range.
    destruct st as [o t s m p]. unfold in_range in *. simpl in *. lia.
  - destruct st as [o t s m p]. unfold in_range in *. simpl in *. lia.
Qed.

Lemma ticks_in_range (n : nat) : in_range (ticks n clock0).
Proof.
  induction n as [|n IH]; simpl.
  - unfold in_range, clock0. simpl. lia.
  - now apply tick_in_range.
Qed.

(** From the zero state the overflow counter is the number of invocations
    modulo 6. *)
Lemma ticks_no_of_overflows (n : nat) :
  no_of_overflows (ticks n clock0) = Z.of_nat n mod 6.
Proof.
  induction n as [|n IH].
  - reflexivity.
  - cbn [ticks]. rewrite TIMER2_OVF_vect_eq, IH.
    assert (Hr : 0 <= Z.of_nat n mod 6 < 6) by (apply Z.mod_pos_bound; lia).
    rewrite (u8_small (Z.of_nat n mod 6 + 1)) by lia.
    rewrite Nat2Z.inj_succ.
    destruct (Z.leb_spec 6 (Z.of_nat n mod 6 + 1)); simpl.
    + destruct (ticks n clock0) as [o t s m p]. unfold count. simpl.
      assert (E : forall c : clock, no_of_overflows c = 0 ->
                 no_of_overflows
                   (if 59 <? minutes c then set_minutes 0 c else c) = 0)
        by (intros c Hc; destruct (59 <? minutes c); assumption).
      rewrite E.
      * Z.to_euclidean_division_equations. lia.
      * destruct (59 <? _); [|destruct (9 <? _); [destruct (switch _)|]];
          try reflexivity.
        all: destruct (9 <? _); [destruct (switch _)|]; reflexivity.
    + Z.to_euclidean_division_equations. lia.
Qed.

(** One invocation moves [seconds] by at most one step of the cascade. *)
Lemma seconds_step (st : clock) :
  in_range st ->
  let st' := fst (TIMER2_OVF_vect st) in
  seconds st' = seconds st \/
  (seconds st < 59 /\ seconds st' = seconds st + 1) \/
  (seconds st = 59 /\ seconds st' = 0).
Proof.
  intros (Ho & Ht & Hs & Hm & Hp). cbv zeta.
  rewrite TIMER2_OVF_vect_eq.
  destruct (6 <=? u8 (no_of_overflows st + 1)); [|left; reflexivity].
  cbv zeta. cbn [fst]. rewrite count_eq by (destruct st; simpl in *; lia).
  destruct st as [o t s m p]. unfold set_no_of_overflows, set_tenths.
  branches; lia.
Qed.

(** C4. On an update (the overflow counter stands at 5) with the counters
    in their ranges: tenths 0..8 is incremented and seconds, minutes and
    secPwr stay; tenths 9 becomes 0 and seconds is incremented; seconds
    then above 59 becomes 0 and minutes is incremented; minutes then above
    59 becomes 0. *)
Theorem clock_cascade (st : clock) :
  no_of_overflows st = 5 ->
  0 <= tenths st <= 9 -> 0 <= seconds st <= 59 -> 0 <= minutes st <= 59 ->
  let st' := fst (TIMER2_OVF_vect st) in
  (tenths st <= 8 ->
     tenths st' = tenths st + 1 /\ seconds st' = seconds st /\
     minutes st' = minutes st /\ secPwr st' = secPwr st) /\
  (tenths st = 9 ->
     tenths st' = 0 /\
     (seconds st <= 58 ->
        seconds st' = seconds st + 1 /\ minutes st' = minutes st) /\
     (seconds st = 59 ->
        seconds st' = 0 /\
        (minutes st <= 58 -> minutes st' = minutes st + 1) /\
        (minutes st = 59 -> minutes st' = 0))).
Proof.
  intros Ho Ht Hs Hm. cbv zeta.
  rewrite TIMER2_OVF_vect_eq, Ho. change (6 <=? u8 (5 + 1)) with true.
  cbv iota zeta. cbn [fst].
  rewrite count_eq by (destruct st; simpl in *; lia).
  destruct st as [o t s m p]. unfold set_no_of_overflows, set_tenths.
  branches; repeat split; intros; lia.
Qed.

Lemma clock_cascade_witness :
  let st' := fst (TIMER2_OVF_vect (mkClock 5 9 59 59 3481)) in
  tenths st' = 0 /\ seconds st' = 0 /\ minutes st' = 0.
Proof.
  destruct (clock_cascade (mkClock 5 9 59 59 3481)) as [_ H];
    [reflexivity | simpl; lia | simpl; lia | simpl; lia |].
  destruct (H eq_refl) as (Ht & _ & Hs).
  destruct (Hs eq_refl) as (Hs' & _ & Hm).
  cbv zeta. split; [exact Ht | split; [exact Hs' | exact (Hm eq_refl)]].
Defined.

(** Where the switch is reached it stores 0 or the square, and where it is
    not reached [secPwr] keeps its value. *)
Lemma secPwr_count (st : clock) :
  secPwr (count st) =
  match scrutinee st with
  | Some s =>
      match switch s with
      | case_0 => 0
      | case_60 => 0
      | default => u16 (s * s)
      end
  | None => secPwr st
  end.
Proof.
  destruct st as [o t s m p].
  unfold count, scrutinee, set_tenths, set_seconds, set_minutes, set_secPwr.
  cbn [no_of_overflows tenths seconds minutes secPwr].
  repeat (match goal with
          | |- context [?a <? ?b] =>
              lazymatch b with
              | context [if _ then _ else _] => fail
              | _ => destruct (a <? b)
              end
          end;
          cbn [no_of_overflows tenths seconds minutes secPwr]);
    try reflexivity; destruct (switch (u8 (s + 1))); reflexivity.
Qed.

(** C2. [secPwr] is written only when tenths rolls over, to 0 if the
    incremented seconds is 0 or 60 and to its square otherwise; from the zero
    state it is the square of seconds, so 3481 at 59 seconds, and it falls
    back to 0 exactly when seconds wraps from 59 to 0. *)
Theorem secPwr_recomputed_on_rollover :
  (forall st : clock,
     let s := u8 (seconds st + 1) in
     secPwr (fst (TIMER2_OVF_vect st)) =
     if (6 <=? u8 (no_of_overflows st + 1)) && (9 <? u8 (tenths st + 1))
     then (if (s =? 0) || (s =? 60) then 0 else s * s)
     else secPwr st) /\
  (forall n : nat,
     let st := ticks n clock0 in
     let st' := ticks (S n) clock0 in
     secPwr st = seconds st * seconds st /\
     (seconds st = 59 -> secPwr st = 3481) /\
     (seconds st' = 0 -> secPwr st' = 0) /\
     ((secPwr st <> 0 /\ secPwr st' = 0) <->
      (seconds st = 59 /\ seconds st' = 0))) /\
  ticks 3540 clock0 = mkClock 0 0 59 0 3481 /\
  ticks 3600 clock0 = mkClock 0 0 0 1 0.
Proof.
  split; [|split; [|split; vm_compute; reflexivity]].
  - intros st. cbv zeta. rewrite TIMER2_OVF_vect_eq.
    destruct (6 <=? u8 (no_of_overflows st + 1)); [|reflexivity].
    cbv zeta. cbn [fst andb]. rewrite secPwr_count.
    destruct st as [o t s m p]. unfold scrutinee, switch.
    cbn [set_no_of_overflows set_tenths set_seconds tenths seconds secPwr].
    destruct (9 <? u8 (t + 1)); [|reflexivity].
    assert (Hs : 0 <= u8 (s + 1) < 256) by (apply Z.mod_pos_bound; lia).
    destruct (u8 (s + 1) =? 0); [reflexivity|].
    destruct (u8 (s + 1) =? 60); [reflexivity|].
    cbn [orb]. apply u16_small. nia.
  - intros n. cbv zeta.
    pose proof (ticks_in_range n) as (_ & _ & Hs & _ & Hp).
    pose proof (ticks_in_range (S n)) as (_ & _ & Hs' & _ & Hp').
    pose proof (seconds_step _ (ticks_in_range n)) as Hstep.
    cbv zeta in Hstep. change (fst (TIMER2_OVF_vect (ticks n clock0)))
      with (ticks (S n) clock0) in Hstep.
    repeat split; nia.
Qed.

(** C10. From the zero state seconds stays in 0..59, so the value the switch
    examines is the old seconds plus one, lies in 1..60 and never selects
    the label [case 0]. *)
Theorem switch_case_0_unreachable (n : nat) :
  let st := ticks n clock0 in
  0 <= seconds st <= 59 /\
  match scrutinee st with
  | Some s => s = seconds st + 1 /\ 1 <= s <= 60 /\ switch s <> case_0
  | None => True
  end.
Proof.
  cbv zeta. pose proof (ticks_in_range n) as (_ & _ & Hs & _).
  split; [exact Hs|].
  destruct (ticks n clock0) as [o t s m p]. unfold scrutinee.
  cbn [set_tenths set_seconds tenths seconds] in *.
  destruct (9 <? u8 (t + 1)); [|exact I].
  rewrite u8_small by lia. unfold switch.
  destruct (Z.eqb_spec (s + 1) 0); [lia|].
  repeat split; try lia.
  destruct (s + 1 =? 60); discriminate.
Qed.

(** The calls of [render], in order. *)
Lemma render_calls (st : clock) :
  calls (snd (render st)) =
  Gotoxy 1 0 ::
  (if minutes st <? 60
   then [Putc "0"; Puts (itoa10 (int16 (minutes st)))]
   else [Puts (itoa10 (int16 (minutes st)))]) ++
  Putc ":" ::
  (if seconds st <? 10
   then [Putc "0"; Puts (itoa10 (int16 (seconds st)))]
   else [Puts (itoa10 (int16 (seconds st)))]) ++
  [Putc "."; Puts (itoa10 (int16 (tenths st)));
   Gotoxy 12 0; Puts (itoa10 (int16 (secPwr st)))].
Proof.
  unfold render, bind, itoa, lcd_gotoxy, lcd_putc, lcd_puts, emit.
  destruct (minutes st <? 60), (seconds st <? 10); reflexivity.
Qed.

(** C3. From the zero state, invocation [n + 1] of the stopwatch handler
    counts and renders exactly when [n + 1] is a multiple of 6; otherwise it
    makes no call and changes nothing but its overflow counter, which it
    advances by one. *)
Theorem update_on_every_sixth_invocation (n : nat) :
  let st := ticks n clock0 in
  let r := TIMER2_OVF_vect st in
  if Z.of_nat (S n) mod 6 =? 0 then
    fst r = count (set_no_of_overflows 0 st) /\
    snd r = snd (render (fst r)) /\
    tenths (fst r) <> tenths st /\
    exists tr, calls (snd r) = Gotoxy 1 0 :: tr
  else
    fst r = set_no_of_overflows (no_of_overflows st + 1) st /\
    snd r = silent.
Proof.
  cbv zeta. rewrite TIMER2_OVF_vect_eq, ticks_no_of_overflows.
  assert (Hr : 0 <= Z.of_nat n mod 6 < 6) by (apply Z.mod_pos_bound; lia).
  rewrite (u8_small (Z.of_nat n mod 6 + 1)) by lia.
  rewrite Nat2Z.inj_succ.
  destruct (Z.eqb_spec (Z.succ (Z.of_nat n) mod 6) 0) as [E|E],
    (Z.leb_spec 6 (Z.of_nat n mod 6 + 1)) as [L|L];
    try (exfalso; Z.to_euclidean_division_equations; lia).
  - cbv zeta. cbn [fst snd]. repeat split.
    + pose proof (ticks_in_range n) as (_ & Ht & Hs & Hm & _).
      rewrite count_eq by (destruct (ticks n clock0); simpl in *; lia).
      destruct (ticks n clock0) as [o t s m p].
      unfold set_no_of_overflows, set_tenths. branches; lia.
    + rewrite render_calls. eexists. reflexivity.
  - split; reflexivity.
Qed.

(** C8. Rendering minutes 5, seconds 7, tenths 3 writes the characters of
    05:07.3 into columns 1 to 7 of row 0, and rendering all zeros writes
    00:00.0 there; the only other cells written are those of [secPwr], from
    column 12 on.  The handler does so on the updates that lead to these
    values. *)
Theorem render_clock_string :
  (forall o q : Z,
     calls (snd (render (mkClock o 3 7 5 q))) =
     [ Gotoxy 1 0; Putc "0"; Puts ["5"%char]; Putc ":";
       Putc "0"; Puts ["7"%char]; Putc "."; Puts ["3"%char];
       Gotoxy 12 0; Puts (itoa10 (int16 q)) ] /\
     written (snd (render (mkClock o 3 7 5 q))) =
     typed 1 0 (list_ascii_of_string "05:07.3") ++
     typed 12 0 (itoa10 (int16 q))) /\
  (forall o q : Z,
     calls (snd (render (mkClock o 0 0 0 q))) =
     [ Gotoxy 1 0; Putc "0"; Puts ["0"%char]; Putc ":";
       Putc "0"; Puts ["0"%char]; Putc "."; Puts ["0"%char];
       Gotoxy 12 0; Puts (itoa10 (int16 q)) ] /\
     written (snd (render (mkClock o 0 0 0 q))) =
     typed 1 0 (list_ascii_of_string "00:00.0") ++
     typed 12 0 (itoa10 (int16 q))) /\
  (let r := TIMER2_OVF_vect (mkClock 5 2 7 5 49) in
   fst r = mkClock 0 3 7 5 49 /\
   written (snd r) =
   typed 1 0 (list_ascii_of_string "05:07.3") ++
   typed 12 0 (list_ascii_of_string "49")) /\
  (let r := TIMER2_OVF_vect (mkClock 5 9 59 59 3481) in
   fst r = mkClock 0 0 0 0 0 /\
   written (snd r) =
   typed 1 0 (list_ascii_of_string "00:00.0") ++
   typed 12 0 (list_ascii_of_string "0")).
Proof.
  split; [|split; [|split; split; vm_compute; reflexivity]];
    intros o q; unfold written; rewrite render_calls;
    cbn [minutes seconds tenths secPwr].
  - change (itoa10 (int16 5)) with ["5"%char].
    change (itoa10 (int16 7)) with ["7"%char].
    change (itoa10 (int16 3)) with ["3"%char].
    split; [reflexivity|].
    cbn -[itoa10 int16]. now rewrite app_nil_r.
  - change (itoa10 (int16 0)) with ["0"%char].
    split; [reflexivity|].
    cbn -[itoa10 int16]. now rewrite app_nil_r.
Qed.

(** ** The conversion buffer *)

Lemma digits_rev_length (fuel : nat) (v : Z) :
  10 <= v -> (2 <= List.length (digits_rev (S (S fuel)) v))%nat.
Proof.
  intros Hv. cbn [digits_rev].
  destruct (Z.eqb_spec (v / 10) 0) as [E|E].
  - exfalso. Z.to_euclidean_division_equations. lia.
  - simpl. lia.
Qed.

(** A value of two or more digits does not fit into [string]. *)
Lemma itoa_bytes_two_digits (v : Z) :
  10 <= v -> string_size < itoa_bytes v.
Proof.
  intros Hv. unfold itoa_bytes, itoa10, string_size.
  destruct (Z.ltb_spec v 0); [lia|].
  rewrite length_rev.
  pose proof (digits_rev_length 3 v Hv). lia.
Qed.

(** The bytes [render] stores past the end of [string]. *)
Lemma render_overrun (st : clock) :
  let over v := Z.max 0 (itoa_bytes (int16 v) - string_size) in
  overrun (snd (render st)) =
  over (minutes st) + over (seconds st) + over (tenths st) + over (secPwr st).
Proof.
  unfold render, bind, itoa, lcd_gotoxy, lcd_putc, lcd_puts, emit.
  destruct (minutes st <? 60), (seconds st <? 10); cbn; lia.
Qed.

(** Rendering 10 to 59 seconds stores past the end of [string]. *)
Lemma render_overrun_seconds (st : clock) :
  10 <= seconds st <= 59 -> 1 <= overrun (snd (render st)).
Proof.
  intros Hs. rewrite render_overrun. cbv zeta.
  assert (E : int16 (seconds st) = seconds st).
  { unfold int16. rewrite Z.mod_small by lia.
    destruct (Z.ltb_spec (seconds st) 32768); lia. }
  rewrite E.
  pose proof (itoa_bytes_two_digits (seconds st) (proj1 Hs)). lia.
Qed.

(** C1. The first 239 invocations from the zero state keep every conversion
    inside [string]; invocation 240 reaches 4 seconds and converts
    [secPwr = 16], three bytes for a buffer of two; the invocation that
    reaches 10 seconds and the one that reaches 59 seconds overrun it as
    well. *)
Theorem string_overrun :
  string_size = 2 /\
  forallb (fun k => overrun (snd (TIMER2_OVF_vect (ticks k clock0))) =? 0)
          (seq 0 239) = true /\
  (let r := TIMER2_OVF_vect (ticks 239 clock0) in
   fst r = mkClock 0 0 4 0 16 /\ itoa_bytes 16 = 3 /\ overrun (snd r) = 1) /\
  (let r := TIMER2_OVF_vect (ticks 599 clock0) in
   fst r = mkClock 0 0 10 0 100 /\ itoa_bytes 10 = 3 /\ itoa_bytes 100 = 4 /\
   overrun (snd r) = 3) /\
  (let r := TIMER2_OVF_vect (ticks 3539 clock0) in
   fst r = mkClock 0 0 59 0 3481 /\ itoa_bytes 59 = 3 /\
   itoa_bytes 3481 = 5 /\ overrun (snd r) = 4).
Proof. repeat split; vm_compute; reflexivity. Qed.

(** C5. At 10 minutes the minutes field is the three characters 010: the
    padding zero is written whenever minutes is below 60. *)
Theorem minutes_field_three_characters :
  (forall o q : Z,
     written (snd (render (mkClock o 0 0 10 q))) =
     typed 1 0 (list_ascii_of_string "010:00.0") ++
     typed 12 0 (itoa10 (int16 q))) /\
  (let r := TIMER2_OVF_vect (ticks (6 * 10 * 60 * 10 - 1) clock0) in
   fst r = mkClock 0 0 0 10 0 /\
   written (snd r) =
   typed 1 0 (list_ascii_of_string "010:00.0") ++
   typed 12 0 (list_ascii_of_string "0")).
Proof.
  split; [|split; vm_compute; reflexivity].
  intros o q. unfold written. rewrite render_calls.
  cbn [minutes seconds tenths secPwr].
  change (itoa10 (int16 10)) with ["1"%char; "0"%char].
  change (itoa10 (int16 0)) with ["0"%char].
  cbn -[itoa10 int16]. now rewrite app_nil_r.
Qed.

(** ** The progress-bar handler *)

(** A counting loop that writes one character per round leaves through its
    condition, after [n - i] rounds. *)
Lemma for_u8_putc (c : ascii) (n : Z) (fuel : nat) :
  forall i : Z,
    0 <= i <= n -> n <= 255 -> (Z.to_nat (n - i) < fuel)%nat ->
    for_u8 fuel i n (fun _ => lcd_putc c) =
    Some (n, mkOutput (repeat (Putc c) (Z.to_nat (n - i))) 0).
Proof.
  induction fuel as [|fuel IH]; intros i Hi Hn Hf; [lia|].
  cbn [for_u8]. destruct (Z.ltb_spec i n) as [Hlt|Hge].
  - rewrite u8_small by lia. rewrite IH by lia.
    replace (Z.to_nat (n - i)) with (S (Z.to_nat (n - (i + 1)))) by lia.
    reflexivity.
  - replace i with n by lia. rewrite Z.sub_diag. reflexivity.
Qed.

(** One invocation with the bar length within 0..5. *)
Lemma TIMER1_OVF_vect_eq (st : bar) :
  0 <= prgrsBarLgth st <= 5 ->
  let len := if 4 <? prgrsBarLgth st then 1 else prgrsBarLgth st + 1 in
  TIMER1_OVF_vect st =
  Some (mkBar len len,
        mkOutput (Gotoxy 0 1 :: repeat (Putc (chr 255)) (Z.to_nat len)) 0).
Proof.
  intros H. cbv zeta. unfold TIMER1_OVF_vect.
  destruct (Z.ltb_spec 4 (prgrsBarLgth st));
    cbn [prgrsBarLgth]; rewrite u8_small by lia;
    (rewrite for_u8_putc by (unfold u8_fuel; lia));
    rewrite Z.sub_0_r;
    unfold bind, ret, lcd_gotoxy, emit, join, silent;
    cbn [calls overrun app]; rewrite app_nil_r; reflexivity.
Qed.

Lemma typed_repeat (c : ascii) (y : Z) (k : nat) :
  forall x : Z, cells x y (repeat (Putc c) k) = typed x y (repeat c k).
Proof.
  induction k as [|k IH]; intros x; simpl; [reflexivity|].
  now rewrite IH.
Qed.

(** The statics after [S n] invocations from the reset state. *)
Lemma bar_ticks_eq (n : nat) :
  bar_ticks (S n) bar0 =
  Some (mkBar (Z.of_nat n mod 5 + 1) (Z.of_nat n mod 5 + 1)).
Proof.
  induction n as [|n IH]; [reflexivity|].
  change (bar_ticks (S (S n)) bar0)
    with (match bar_ticks (S n) bar0 with
          | Some st' => option_map fst (TIMER1_OVF_vect st')
          | None => None
          end).
  rewrite IH.
  assert (Hr : 0 <= Z.of_nat n mod 5 < 5) by (apply Z.mod_pos_bound; lia).
  rewrite TIMER1_OVF_vect_eq by (cbn [prgrsBarLgth]; lia).
  cbn [prgrsBarLgth option_map fst]. rewrite Nat2Z.inj_succ.
  destruct (Z.ltb_spec 4 (Z.of_nat n mod 5 + 1));
    do 2 f_equal; Z.to_euclidean_division_equations; lia.
Qed.

(** C7. From the reset state, invocation [n + 1] of the progress-bar
    handler sets the bar length to [n mod 5 + 1], positions the cursor at
    column 0 of row 1 and writes that many filled blocks and nothing else;
    the first seven lengths are 1,2,3,4,5,1,2. *)
Theorem progress_bar_cycle (n : nat) :
  let len := Z.of_nat n mod 5 + 1 in
  (exists st : bar,
     bar_ticks n bar0 = Some st /\
     TIMER1_OVF_vect st =
     Some (mkBar len len,
           mkOutput (Gotoxy 0 1 :: repeat (Putc (chr 255)) (Z.to_nat len)) 0)) /\
  written
    (mkOutput (Gotoxy 0 1 :: repeat (Putc (chr 255)) (Z.to_nat len)) 0) =
  typed 0 1 (repeat (chr 255) (Z.to_nat len)) /\
  map (fun k => option_map prgrsBarLgth (bar_ticks k bar0)) (seq 1 7) =
  map Some [1; 2; 3; 4; 5; 1; 2].
Proof.
  cbv zeta. split; [|split; [apply typed_repeat | reflexivity]].
  destruct n as [|n].
  - exists bar0. split; reflexivity.
  - eexists. split; [apply bar_ticks_eq|].
    assert (Hr : 0 <= Z.of_nat n mod 5 < 5) by (apply Z.mod_pos_bound; lia).
    rewrite TIMER1_OVF_vect_eq by (cbn [prgrsBarLgth]; lia).
    cbn [prgrsBarLgth]. rewrite Nat2Z.inj_succ.
    assert (E : (if 4 <? Z.of_nat n mod 5 + 1 then 1
                 else Z.of_nat n mod 5 + 1 + 1) =
                Z.succ (Z.of_nat n) mod 5 + 1).
    { destruct (Z.ltb_spec 4 (Z.of_nat n mod 5 + 1));
        Z.to_euclidean_division_equations; lia. }
    rewrite E. reflexivity.
Qed.

(** ** The start-up sequence *)

(** [main] reaches its empty loop, after these calls. *)
Lemma main_eq (LCD_DISP_ON LCD_CGRAM LCD_DDRAM : Z) :
  main LCD_DISP_ON LCD_CGRAM LCD_DDRAM =
  Some (tt,
        mkOutput
          (Init LCD_DISP_ON ::
           Command (Z.shiftl 1 LCD_CGRAM) ::
           map Data customChar ++
           Command (Z.shiftl 1 LCD_DDRAM) :: after_upload ++ [Sei])
          0).
Proof.
  unfold main.
  match goal with
  | |- context [for_u8 ?f ?i ?n ?b] =>
      let v := eval vm_compute in (for_u8 f i n b) in
      change (for_u8 f i n b) with v
  end.
  reflexivity.
Qed.

Lemma drives_TIM2 : drives TIM2 Clock.
Proof.
  intros s. unfold ISR. now destruct (TIMER2_OVF_vect (stopwatch s)).
Qed.

Lemma drives_TIM1 : drives TIM1 Progress.
Proof.
  intros s. unfold ISR.
  now destruct (TIMER1_OVF_vect (progress s)) as [[b o]|].
Qed.

Lemma drives_Clock (t : timer) : drives t Clock -> t = TIM2.
Proof.
  destruct t; [|reflexivity].
  intros H. specialize (H (mkStatics clock0 bar0)). discriminate H.
Qed.

Lemma drives_Progress (t : timer) : drives t Progress -> t = TIM1.
Proof.
  destruct t; [reflexivity|].
  intros H. specialize (H (mkStatics clock0 bar0)). discriminate H.
Qed.

(** C6, as the code has it. The timer whose handler is the stopwatch is
    armed with the 16 ms overflow period, and the timer whose handler is the
    progress bar with the 1 s one. *)
Theorem timers_armed (LCD_DISP_ON LCD_CGRAM LCD_DDRAM : Z) (tA tB : timer) :
  drives tA Clock -> drives tB Progress ->
  exists o : output,
    main LCD_DISP_ON LCD_CGRAM LCD_DDRAM = Some (tt, o) /\
    armed tA (calls o) = Some OVF_16MS /\
    armed tB (calls o) = Some OVF_1SEC.
Proof.
  intros HA HB.
  apply drives_Clock in HA. apply drives_Progress in HB. subst tA tB.
  eexists. split; [apply main_eq|]. split; reflexivity.
Qed.

Lemma timers_armed_witness :
  exists o : output,
    main 12 6 7 = Some (tt, o) /\
    armed TIM2 (calls o) = Some OVF_16MS /\
    armed TIM1 (calls o) = Some OVF_1SEC.
Proof.
  apply (timers_armed 12 6 7 TIM2 TIM1).
  - intros s. unfold ISR. destruct (TIMER2_OVF_vect (stopwatch s)).
    reflexivity.
  - intros s. unfold ISR.
    destruct (TIMER1_OVF_vect (progress s)) as [[b o]|]; reflexivity.
Defined.

(** C6, as the claim has it, fails: no start-up with the stopwatch timer on
    the 1 s period and the progress-bar timer on the 16 ms one. *)
Lemma timers_armed_as_claimed_fails :
  ~ (exists (o : output) (tA tB : timer),
       main 12 6 7 = Some (tt, o) /\
       drives tA Clock /\ drives tB Progress /\
       armed tA (calls o) = Some OVF_1SEC /\
       armed tB (calls o) = Some OVF_16MS).
Proof.
  intros (o & tA & tB & Hm & HA & HB & H1 & H2).
  apply drives_Clock in HA. subst tA.
  rewrite main_eq in Hm. injection Hm as <-. discriminate H1.
Qed.

(** C9, as the code has it. [main] sends the command [1 << LCD_CGRAM], then
    [N_CHARS * 8 = 48] bytes with [lcd_data]: the 32 initialisers of
    [customChar], which are four glyphs of eight rows, and 16 zero bytes;
    then the command [1 << LCD_DDRAM].  No other data byte and no other
    command follows, and [sei] is the last call, so that command is the last
    one sent when interrupts are enabled. *)
Theorem glyph_upload_before_sei (LCD_DISP_ON LCD_CGRAM LCD_DDRAM : Z) :
  exists o : output,
    main LCD_DISP_ON LCD_CGRAM LCD_DDRAM = Some (tt, o) /\
    calls o =
      Init LCD_DISP_ON ::
      Command (Z.shiftl 1 LCD_CGRAM) ::
      map Data customChar ++
      Command (Z.shiftl 1 LCD_DDRAM) :: after_upload ++ [Sei] /\
    data_bytes (calls o) = customChar /\
    customChar = customChar_init ++ repeat 0 16 /\
    List.length customChar_init = 32%nat /\
    Z.of_nat (List.length customChar) = N_CHARS * 8 /\
    N_CHARS * 8 = 48 /\
    data_bytes after_upload = [] /\
    last_command None after_upload = None /\
    last_command None (before_sei (calls o)) = Some (Z.shiftl 1 LCD_DDRAM).
Proof.
  eexists. split; [apply main_eq|]. repeat split.
Qed.

(** C9, as the claim has it, fails: the bytes uploaded are not 32. *)
Lemma glyph_upload_32_bytes_fails :
  ~ (exists o : output,
       main 12 6 7 = Some (tt, o) /\
       List.length (data_bytes (calls o)) = 32%nat).
Proof.
  intros (o & Hm & H). rewrite main_eq in Hm. injection Hm as <-.
  discriminate H.
Qed.

(** * Further properties *)

(** ** The stopwatch as a counter of elapsed time *)

Lemma count_clock_at (o e : Z) :
  0 <= e -> count (clock_at o e) = clock_at o (e + 1).
Proof.
  intros He.
  assert (Ht : 0 <= e mod 10 < 10) by (apply Z.mod_pos_bound; lia).
  assert (Hs : 0 <= (e / 10) mod 60 < 60) by (apply Z.mod_pos_bound; lia).
  assert (Hm : 0 <= (e / 600) mod 60 < 60) by (apply Z.mod_pos_bound; lia).
  rewrite count_eq by (unfold clock_at; simpl; lia).
  unfold clock_at, set_tenths. cbv zeta.
  cbn [no_of_overflows tenths seconds minutes secPwr].
  assert (A :
    (e mod 10 < 9 ->
       (e + 1) mod 10 = e mod 10 + 1 /\
       ((e + 1) / 10) mod 60 = (e / 10) mod 60 /\
       ((e + 1) / 600) mod 60 = (e / 600) mod 60) /\
    (e mod 10 = 9 ->
       (e + 1) mod 10 = 0 /\
       ((e / 10) mod 60 < 59 ->
          ((e + 1) / 10) mod 60 = (e / 10) mod 60 + 1 /\
          ((e + 1) / 600) mod 60 = (e / 600) mod 60) /\
       ((e / 10) mod 60 = 59 ->
          ((e + 1) / 10) mod 60 = 0 /\
          ((e / 600) mod 60 < 59 ->
             ((e + 1) / 600) mod 60 = (e / 600) mod 60 + 1) /\
          ((e / 600) mod 60 = 59 -> ((e + 1) / 600) mod 60 = 0))))
    by (Z.to_euclidean_division_equations; lia).
  destruct A as [A1 A2].
  destruct (Z.ltb_spec (e mod 10) 9) as [H|H].
  - destruct (A1 H) as (-> & -> & ->). reflexivity.
  - destruct (A2 ltac:(lia)) as (-> & B1 & B2).
    destruct (Z.ltb_spec ((e / 10) mod 60) 59) as [H'|H'].
    + destruct (B1 H') as (-> & ->). reflexivity.
    + destruct (B2 ltac:(lia)) as (-> & C1 & C2).
      destruct (Z.ltb_spec ((e / 600) mod 60) 59) as [H''|H''].
      * rewrite (C1 H''). reflexivity.
      * rewrite (C2 ltac:(lia)). reflexivity.
Qed.

Lemma ticks_clock_at (n : nat) :
  ticks n clock0 = clock_at (Z.of_nat n mod 6) (Z.of_nat n / 6).
Proof.
  induction n as [|n IH]; [reflexivity|].
  cbn [ticks]. rewrite IH, TIMER2_OVF_vect_eq.
  cbn [clock_at no_of_overflows].
  assert (Hr : 0 <= Z.of_nat n mod 6 < 6) by (apply Z.mod_pos_bound; lia).
  assert (Hq : 0 <= Z.of_nat n / 6) by (apply Z.div_pos; lia).
  rewrite (u8_small (Z.of_nat n mod 6 + 1)) by lia.
  rewrite Nat2Z.inj_succ.
  destruct (Z.leb_spec 6 (Z.of_nat n mod 6 + 1)) as [L|L]; cbv zeta;
    cbn [fst].
  - change (set_no_of_overflows 0
              (clock_at (Z.of_nat n mod 6) (Z.of_nat n / 6)))
      with (clock_at 0 (Z.of_nat n / 6)).
    rewrite count_clock_at by assumption.
    f_equal; Z.to_euclidean_division_equations; lia.
  - change (set_no_of_overflows (Z.of_nat n mod 6 + 1)
              (clock_at (Z.of_nat n mod 6) (Z.of_nat n / 6)))
      with (clock_at (Z.of_nat n mod 6 + 1) (Z.of_nat n / 6)).
    f_equal; Z.to_euclidean_division_equations; lia.
Qed.

(** X1. After [n] invocations from the zero state the overflow counter is
    [n mod 6] and the stopwatch shows [n / 6] tenths of a second: tenths
    [(n/6) mod 10], seconds [(n/60) mod 60], minutes [(n/3600) mod 60], and
    [secPwr] the square of the seconds. *)
Theorem ticks_closed_form (n : nat) :
  ticks n clock0 = clock_at (Z.of_nat n mod 6) (Z.of_nat n / 6) /\
  tenths (ticks n clock0) = (Z.of_nat n / 6) mod 10 /\
  seconds (ticks n clock0) = (Z.of_nat n / 60) mod 60 /\
  minutes (ticks n clock0) = (Z.of_nat n / 3600) mod 60.
Proof.
  split; [apply ticks_clock_at|]. rewrite ticks_clock_at.
  cbn [clock_at tenths seconds minutes].
  rewrite !Z.div_div by lia. repeat split.
Qed.

Lemma clock_at_inj (o o' e e' : Z) :
  clock_at o e = clock_at o' e' ->
  o = o' /\ e mod 10 = e' mod 10 /\ (e / 10) mod 60 = (e' / 10) mod 60 /\
  (e / 600) mod 60 = (e' / 600) mod 60.
Proof. unfold clock_at. intros H. injection H as H1 H2 H3 H4 _. auto. Qed.

(** X2. The stopwatch wraps after one hour and not before: two numbers of
    invocations lead from the zero state to the same statics exactly when
    they differ by a multiple of 216000 (6 x 10 x 60 x 60). *)
Theorem ticks_period (n m : nat) :
  ticks n clock0 = ticks m clock0 <->
  Z.of_nat n mod 216000 = Z.of_nat m mod 216000.
Proof.
  rewrite (ticks_clock_at n), (ticks_clock_at m).
  pose proof (Nat2Z.is_nonneg n) as Hn. pose proof (Nat2Z.is_nonneg m) as Hm.
  split.
  - intros H. apply clock_at_inj in H. destruct H as (H1 & H2 & H3 & H4).
    Z.to_euclidean_division_equations. lia.
  - intros H. unfold clock_at. cbv zeta.
    assert (A : Z.of_nat n mod 6 = Z.of_nat m mod 6 /\
                (Z.of_nat n / 6) mod 10 = (Z.of_nat m / 6) mod 10 /\
                (Z.of_nat n / 6 / 10) mod 60 = (Z.of_nat m / 6 / 10) mod 60 /\
                (Z.of_nat n / 6 / 600) mod 60 =
                (Z.of_nat m / 6 / 600) mod 60)
      by (Z.to_euclidean_division_equations; lia).
    destruct A as (-> & -> & -> & ->). reflexivity.
Qed.

(** ** Statics outside their ranges *)

(** X3. An update brings the counters into their ranges whatever values the
    [uint8_t] statics held before: afterwards the overflow counter is 0,
    tenths is at most 9, and seconds and minutes are at most 59. *)
Theorem update_restores_ranges (st : clock) :
  5 <= no_of_overflows st <= 254 ->
  0 <= seconds st <= 255 -> 0 <= minutes st <= 255 ->
  let st' := fst (TIMER2_OVF_vect st) in
  no_of_overflows st' = 0 /\
  0 <= tenths st' <= 9 /\ 0 <= seconds st' <= 59 /\ 0 <= minutes st' <= 59.
Proof.
  intros Ho Hs Hm. cbv zeta. rewrite TIMER2_OVF_vect_eq.
  rewrite (u8_small (no_of_overflows st + 1)) by lia.
  destruct (Z.leb_spec 6 (no_of_overflows st + 1)); [|lia].
  cbv zeta. cbn [fst]. destruct st as [o t s m p].
  cbn [no_of_overflows seconds minutes] in *.
  change (set_no_of_overflows 0 (mkClock o t s m p))
    with (mkClock 0 t s m p).
  unfold count, switch, set_tenths, set_seconds, set_minutes, set_secPwr.
  cbn [no_of_overflows tenths seconds minutes secPwr].
  pose proof (Z.mod_pos_bound (t + 1) 256 ltac:(lia)) as Ht'.
  pose proof (Z.mod_pos_bound (s + 1) 256 ltac:(lia)) as Hs'.
  pose proof (Z.mod_pos_bound (m + 1) 256 ltac:(lia)) as Hm'.
  fold (u8 (t + 1)) in Ht'. fold (u8 (s + 1)) in Hs'.
  fold (u8 (m + 1)) in Hm'.
  destruct (Z.ltb_spec 9 (u8 (t + 1)));
    cbn [no_of_overflows tenths seconds minutes secPwr].
  - destruct (u8 (s + 1) =? 0); [|destruct (u8 (s + 1) =? 60)];
      cbn [no_of_overflows tenths seconds minutes secPwr];
      destruct (Z.ltb_spec 59 (u8 (s + 1)));
      cbn [no_of_overflows tenths seconds minutes secPwr];
      match goal with |- context [59 <? ?x] => destruct (Z.ltb_spec 59 x) end;
      cbn [no_of_overflows tenths seconds minutes secPwr]; lia.
  - destruct (Z.ltb_spec 59 s);
      cbn [no_of_overflows tenths seconds minutes secPwr];
      match goal with |- context [59 <? ?x] => destruct (Z.ltb_spec 59 x) end;
      cbn [no_of_overflows tenths seconds minutes secPwr]; lia.
Qed.

Lemma update_restores_ranges_witness :
  let st' := fst (TIMER2_OVF_vect (mkClock 200 77 200 255 9)) in
  no_of_overflows st' = 0 /\
  0 <= tenths st' <= 9 /\ 0 <= seconds st' <= 59 /\ 0 <= minutes st' <= 59.
Proof.
  apply (update_restores_ranges (mkClock 200 77 200 255 9)); simpl; lia.
Defined.

(** ** What the conversions produce *)

Lemma int16_small (v : Z) : 0 <= v < 32768 -> int16 v = v.
Proof.
  intros H. unfold int16. rewrite Z.mod_small by lia.
  destruct (Z.ltb_spec v 32768); lia.
Qed.

Lemma itoa10_one_digit (v : Z) : 0 <= v <= 9 -> itoa10 v = [digit v].
Proof.
  intros H. unfold itoa10, digit.
  destruct (Z.ltb_spec v 0); [lia|]. cbn [digits_rev].
  rewrite (Z.div_small v 10), (Z.mod_small v 10) by lia. reflexivity.
Qed.

Lemma itoa10_two_digits (v : Z) : 10 <= v <= 99 -> itoa10 v = two_digits v.
Proof.
  intros H. unfold itoa10, two_digits, digit.
  destruct (Z.ltb_spec v 0); [lia|]. cbn [digits_rev].
  assert (Hq : 1 <= v / 10 <= 9) by (Z.to_euclidean_division_equations; lia).
  destruct (Z.eqb_spec (v / 10) 0); [lia|].
  rewrite (Z.div_small (v / 10) 10), (Z.mod_small (v / 10) 10) by lia.
  reflexivity.
Qed.

Lemma digits_rev_nonempty (fuel : nat) (v : Z) :
  (1 <= List.length (digits_rev (S fuel) v))%nat.
Proof. cbn [digits_rev]. simpl. lia. Qed.

(** A conversion fits into [string] exactly for the values 0 to 9. *)
Lemma conversion_fits_iff (v : Z) :
  0 <= v <= 65535 ->
  Z.max 0 (itoa_bytes (int16 v) - string_size) = 0 <-> v <= 9.
Proof.
  intros Hv. unfold string_size.
  destruct (Z.le_gt_cases v 9) as [H9|H9].
  - rewrite int16_small by lia. unfold itoa_bytes.
    rewrite itoa10_one_digit by lia. simpl. lia.
  - destruct (Z.lt_ge_cases v 32768) as [Hp|Hn].
    + rewrite int16_small by lia.
      pose proof (itoa_bytes_two_digits v ltac:(lia)) as Hb.
      unfold string_size in Hb. lia.
    + assert (E : int16 v = v - 65536).
      { unfold int16. rewrite Z.mod_small by lia.
        destruct (Z.ltb_spec v 32768); lia. }
      rewrite E. unfold itoa_bytes, itoa10.
      destruct (Z.ltb_spec (v - 65536) 0); [|lia].
      cbn [List.length]. rewrite length_rev.
      pose proof (digits_rev_nonempty 4 (- (v - 65536))). lia.
Qed.

(** X4. With statics within their C types, [render] keeps all four
    conversions inside [char string[2]] exactly when minutes, seconds, tenths
    and [secPwr] are all at most 9; with [secPwr] the square of the seconds,
    that is when minutes is at most 9 and seconds at most 3. *)
Theorem render_in_bounds_iff (st : clock) :
  0 <= tenths st <= 255 -> 0 <= seconds st <= 255 ->
  0 <= minutes st <= 255 -> 0 <= secPwr st <= 65535 ->
  (overrun (snd (render st)) = 0 <->
   minutes st <= 9 /\ seconds st <= 9 /\ tenths st <= 9 /\ secPwr st <= 9) /\
  (tenths st <= 9 -> secPwr st = seconds st * seconds st ->
   (overrun (snd (render st)) = 0 <-> minutes st <= 9 /\ seconds st <= 3)).
Proof.
  intros Ht Hs Hm Hp.
  pose proof (conversion_fits_iff (minutes st) ltac:(lia)) as Fm.
  pose proof (conversion_fits_iff (seconds st) ltac:(lia)) as Fs.
  pose proof (conversion_fits_iff (tenths st) ltac:(lia)) as Ft.
  pose proof (conversion_fits_iff (secPwr st) ltac:(lia)) as Fp.
  rewrite render_overrun. cbv zeta.
  pose proof (Z.le_max_l 0 (itoa_bytes (int16 (minutes st)) - string_size)).
  pose proof (Z.le_max_l 0 (itoa_bytes (int16 (seconds st)) - string_size)).
  pose proof (Z.le_max_l 0 (itoa_bytes (int16 (tenths st)) - string_size)).
  pose proof (Z.le_max_l 0 (itoa_bytes (int16 (secPwr st)) - string_size)).
  generalize dependent
    (Z.max 0 (itoa_bytes (int16 (minutes st)) - string_size)).
  generalize dependent
    (Z.max 0 (itoa_bytes (int16 (seconds st)) - string_size)).
  generalize dependent
    (Z.max 0 (itoa_bytes (int16 (tenths st)) - string_size)).
  generalize dependent
    (Z.max 0 (itoa_bytes (int16 (secPwr st)) - string_size)).
  intros a Fa Ha b Fb Hb c Fc Hc d Fd Hd.
  split; [|intros Ht' E]; split; intros G.
  - assert (a = 0 /\ b = 0 /\ c = 0 /\ d = 0) as (-> & -> & -> & ->) by lia.
    tauto.
  - destruct G as (G1 & G2 & G3 & G4).
    apply Fd in G1. apply Fc in G2. apply Fb in G3. apply Fa in G4. lia.
  - assert (a = 0 /\ b = 0 /\ c = 0 /\ d = 0) as (-> & -> & -> & ->) by lia.
    assert (secPwr st <= 9) by tauto. split; [tauto | nia].
  - destruct G as (G1 & G2).
    assert (G3 : seconds st <= 9) by lia.
    assert (G4 : secPwr st <= 9) by nia.
    apply Fd in G1. apply Fc in G3. apply Fb in Ht'. apply Fa in G4. lia.
Qed.

Lemma render_in_bounds_iff_witness :
  overrun (snd (render (mkClock 0 9 3 9 9))) = 0.
Proof.
  destruct (render_in_bounds_iff (mkClock 0 9 3 9 9)) as [_ H];
    [simpl; lia | simpl; lia | simpl; lia | simpl; lia |].
  apply H; simpl; lia.
Defined.

Lemma render_written (st : clock) :
  0 <= tenths st <= 9 -> 0 <= seconds st <= 59 -> 0 <= minutes st <= 59 ->
  written (snd (render st)) =
  typed 1 0 (clock_text st) ++ typed 12 0 (itoa10 (int16 (secPwr st))).
Proof.
  intros Ht Hs Hm. unfold written, clock_text. rewrite render_calls.
  rewrite (int16_small (minutes st)), (int16_small (seconds st)),
    (int16_small (tenths st)) by lia.
  rewrite (itoa10_one_digit (tenths st)) by lia.
  destruct (Z.ltb_spec (minutes st) 60); [|lia].
  assert (D0 : forall v, 0 <= v <= 9 -> two_digits v = ["0"%char; digit v]).
  { intros v Hv. unfold two_digits.
    rewrite (Z.div_small v 10), (Z.mod_small v 10) by lia. reflexivity. }
  destruct (Z.ltb_spec (minutes st) 10), (Z.ltb_spec (seconds st) 10).
  - rewrite (itoa10_one_digit (minutes st)), (itoa10_one_digit (seconds st)),
      (D0 (minutes st)), (D0 (seconds st)) by lia.
    cbn -[itoa10 int16 digit]. now rewrite app_nil_r.
  - rewrite (itoa10_one_digit (minutes st)), (itoa10_two_digits (seconds st)),
      (D0 (minutes st)) by lia.
    unfold two_digits. cbn -[itoa10 int16 digit]. now rewrite app_nil_r.
  - rewrite (itoa10_two_digits (minutes st)), (itoa10_one_digit (seconds st)),
      (D0 (seconds st)) by lia.
    unfold two_digits. cbn -[itoa10 int16 digit]. now rewrite app_nil_r.
  - rewrite (itoa10_two_digits (minutes st)), (itoa10_two_digits (seconds st))
      by lia.
    unfold two_digits. cbn -[itoa10 int16 digit]. now rewrite app_nil_r.
Qed.

(** X5. With the counters in their ranges, [render] writes into row 0 from
    column 1: minutes in two digits, preceded by one more 0 from 10 minutes
    on, a colon, seconds in exactly two digits, a point and the tenths
    digit; and from column 12 the decimal digits of [secPwr]. *)
Theorem render_text (st : clock) :
  0 <= tenths st <= 9 -> 0 <= seconds st <= 59 -> 0 <= minutes st <= 59 ->
  written (snd (render st)) =
  typed 1 0
    ((if minutes st <? 10 then [] else ["0"%char]) ++
     two_digits (minutes st) ++
     ":"%char :: two_digits (seconds st) ++
     ["."%char; digit (tenths st)]) ++
  typed 12 0 (itoa10 (int16 (secPwr st))).
Proof.
  intros Ht Hs Hm. rewrite render_written by assumption.
  unfold clock_text. reflexivity.
Qed.

Lemma render_text_witness :
  written (snd (render (mkClock 0 9 59 59 3481))) =
  typed 1 0 (list_ascii_of_string "059:59.9") ++
  typed 12 0 (list_ascii_of_string "3481").
Proof.
  exact (render_text (mkClock 0 9 59 59 3481)
           ltac:(simpl; lia) ltac:(simpl; lia) ltac:(simpl; lia)).
Defined.

(** ** The display *)

Lemma paint_app (a b : list cell) (scr : screen) :
  paint (a ++ b) scr = paint b (paint a scr).
Proof.
  revert scr. induction a as [|[[x y] c] a IH]; intros scr; simpl;
    [reflexivity | apply IH].
Qed.

(** Reading the display after a text was written. *)
Lemma paint_typed (s : list ascii) :
  forall (x y : Z) (scr : screen) (x' y' : Z),
    paint (typed x y s) scr x' y' =
    if (y' =? y) && (x <=? x') && (x' <? x + Z.of_nat (List.length s))
    then nth_error s (Z.to_nat (x' - x))
    else scr x' y'.
Proof.
  induction s as [|c s IH]; intros x y scr x' y'.
  - simpl. destruct (y' =? y), (x <=? x') eqn:E1, (x' <? x + 0) eqn:E2;
      try reflexivity. lia.
  - cbn [typed paint List.length]. rewrite IH. unfold put.
    destruct (Z.eqb_spec y' y) as [Ey|Ey]; cbn [andb];
      [|rewrite andb_false_r; reflexivity].
    destruct (Z.leb_spec (x + 1) x'), (Z.ltb_spec x' (x + 1 + Z.of_nat (List.length s))),
      (Z.leb_spec x x'), (Z.ltb_spec x' (x + Z.of_nat (S (List.length s)))),
      (Z.eqb_spec x' x); cbn [andb]; try lia; try reflexivity.
    + replace (Z.to_nat (x' - x)) with (S (Z.to_nat (x' - (x + 1)))) by lia.
      reflexivity.
    + subst x'. rewrite Z.sub_diag. reflexivity.
Qed.

Lemma lcd_type_eq (s : list ascii) :
  forall l : lcd,
    lcd_type s l =
    mkLcd (cursor_x l + Z.of_nat (List.length s)) (cursor_y l)
          (paint (typed (cursor_x l) (cursor_y l) s) (shown l)).
Proof.
  induction s as [|c s IH]; intros [x y scr].
  - simpl. now rewrite Z.add_0_r.
  - cbn [lcd_type]. rewrite IH. cbn [cursor_x cursor_y shown typed paint List.length].
    f_equal. lia.
Qed.

(** The display after a sequence of calls shows the cells they write. *)
Lemma lcd_exec_shown (tr : list event) :
  forall l : lcd,
    shown (lcd_exec tr l) =
    paint (cells (cursor_x l) (cursor_y l) tr) (shown l).
Proof.
  induction tr as [|e tr IH]; intros l; [reflexivity|].
  destruct e; cbn [lcd_exec cells]; rewrite ?lcd_type_eq, IH;
    cbn [cursor_x cursor_y shown typed paint List.length];
    rewrite ?paint_app; reflexivity.
Qed.

(** ** The progress bar from any state *)

(** X6. Whatever value the [uint8_t] bar length holds, an invocation of the
    progress-bar handler leaves its loop, brings the length into 1..5 (1
    after any value above 4), leaves [i] equal to it and makes exactly the
    calls [lcd_gotoxy(0,1)] and that many [lcd_putc(0xff)]: at least one
    block is drawn and never more than five. *)
Theorem progress_bar_any_state (st : bar) :
  0 <= prgrsBarLgth st <= 255 ->
  let len := if 4 <? prgrsBarLgth st then 1 else prgrsBarLgth st + 1 in
  1 <= len <= 5 /\
  TIMER1_OVF_vect st =
  Some (mkBar len len,
        mkOutput (Gotoxy 0 1 :: repeat (Putc (chr 255)) (Z.to_nat len)) 0).
Proof.
  intros H. cbv zeta. unfold TIMER1_OVF_vect.
  destruct (Z.ltb_spec 4 (prgrsBarLgth st)); (split; [lia|]);
    cbn [prgrsBarLgth]; rewrite u8_small by lia;
    (rewrite for_u8_putc by (unfold u8_fuel; lia));
    rewrite Z.sub_0_r;
    unfold bind, ret, lcd_gotoxy, emit, join, silent;
    cbn [calls overrun app]; rewrite app_nil_r; reflexivity.
Qed.

Lemma progress_bar_any_state_witness :
  TIMER1_OVF_vect (mkBar 255 0) =
  Some (mkBar 1 1, mkOutput [Gotoxy 0 1; Putc (chr 255)] 0).
Proof.
  apply (progress_bar_any_state (mkBar 255 0)). simpl. lia.
Defined.

(** ** The shared cursor *)

(** X7. Both handlers position the cursor before their first write: what an
    invocation draws is the same wherever the cursor was left before, by
    [main] or by the other handler. *)
Theorem handlers_position_cursor (x y : Z) (scr : screen) :
  (forall st : clock,
     let o := snd (TIMER2_OVF_vect st) in
     shown (lcd_exec (calls o) (mkLcd x y scr)) = paint (written o) scr) /\
  (forall st : bar,
     match TIMER1_OVF_vect st with
     | Some (_, o) =>
         shown (lcd_exec (calls o) (mkLcd x y scr)) = paint (written o) scr
     | None => True
     end).
Proof.
  split; intros st.
  - cbv zeta. rewrite lcd_exec_shown. cbn [cursor_x cursor_y shown].
    unfold written. rewrite TIMER2_OVF_vect_eq.
    destruct (6 <=? u8 (no_of_overflows st + 1)); [|reflexivity].
    cbv zeta. cbn [snd]. rewrite render_calls. reflexivity.
  - unfold TIMER1_OVF_vect.
    destruct (for_u8 _ _ _ _) as [[i' o]|]; [|exact I].
    unfold bind, ret, lcd_gotoxy, emit. cbn [calls join app].
    rewrite lcd_exec_shown. reflexivity.
Qed.

(** ** Lengths of the texts *)

Lemma clock_text_length (st : clock) :
  (7 <= List.length (clock_text st) <= 8)%nat.
Proof.
  unfold clock_text, two_digits. destruct (minutes st <? 10); simpl; lia.
Qed.

Lemma itoa10_length (v : Z) :
  0 <= v < 10000 -> (1 <= List.length (itoa10 v) <= 4)%nat.
Proof.
  intros H. unfold itoa10. destruct (Z.ltb_spec v 0); [lia|].
  rewrite length_rev. cbn [digits_rev].
  assert (E : v / 10 / 10 / 10 / 10 = 0)
    by (Z.to_euclidean_division_equations; lia).
  destruct (v / 10 =? 0); [simpl; lia|].
  destruct (v / 10 / 10 =? 0); [simpl; lia|].
  destruct (v / 10 / 10 / 10 =? 0); [simpl; lia|].
  rewrite E. simpl. lia.
Qed.

Lemma secPwr_text_length (st : clock) :
  in_range st ->
  (1 <= List.length (itoa10 (int16 (secPwr st))) <= 4)%nat.
Proof.
  intros (_ & _ & Hs & _ & Hp).
  rewrite int16_small by nia. apply itoa10_length. nia.
Qed.

(** ** Interrupts in any order *)

Lemma interrupt_TIM2 (sys : system) :
  interrupt TIM2 sys =
  Some (mkSystem
          (mkStatics (fst (TIMER2_OVF_vect (stopwatch (mem sys))))
                     (progress (mem sys)))
          (lcd_exec (calls (snd (TIMER2_OVF_vect (stopwatch (mem sys)))))
                    (display sys))).
Proof.
  unfold interrupt, ISR. now destruct (TIMER2_OVF_vect (stopwatch (mem sys))).
Qed.

(** An invocation on the way from the zero state either renders the new
    statics or is silent and leaves the displayed values alone. *)
Lemma tick_cases (n : nat) :
  let st := ticks n clock0 in
  let st' := ticks (S n) clock0 in
  snd (TIMER2_OVF_vect st) = snd (render st') \/
  (snd (TIMER2_OVF_vect st) = silent /\ (6 <= S n -> 6 <= n)%nat /\
   tenths st' = tenths st /\ seconds st' = seconds st /\
   minutes st' = minutes st /\ secPwr st' = secPwr st).
Proof.
  cbv zeta. cbn [ticks]. rewrite TIMER2_OVF_vect_eq, ticks_no_of_overflows.
  assert (Hr : 0 <= Z.of_nat n mod 6 < 6) by (apply Z.mod_pos_bound; lia).
  rewrite (u8_small (Z.of_nat n mod 6 + 1)) by lia.
  destruct (Z.leb_spec 6 (Z.of_nat n mod 6 + 1)) as [L|L].
  - left. reflexivity.
  - right. cbn [fst snd]. split; [reflexivity|]. split.
    + intros H6. destruct (Nat.eq_dec n 5) as [->|]; [|lia].
      vm_compute in L. discriminate L.
    + destruct (ticks n clock0). repeat split.
Qed.

Lemma render_cells (st : clock) (x y : Z) :
  in_range st ->
  cells x y (calls (snd (render st))) =
  typed 1 0 (clock_text st) ++
  typed 12 0 (itoa10 (int16 (secPwr st))).
Proof.
  intros (_ & Ht & Hs & Hm & _).
  pose proof (render_written st Ht Hs Hm) as E. unfold written in E.
  rewrite render_calls in *. exact E.
Qed.

Lemma step_TIM2 (l0 : lcd) (k1 k2 : nat) (sys : system) :
  invariant l0 k1 k2 sys ->
  exists sys' : system,
    interrupt TIM2 sys = Some sys' /\ invariant l0 k1 (S k2) sys'.
Proof.
  intros (I1 & I2 & I3 & I4 & I5).
  rewrite interrupt_TIM2. eexists. split; [reflexivity|].
  unfold invariant. cbn [mem display stopwatch progress].
  rewrite I1 in *.
  change (fst (TIMER2_OVF_vect (ticks k2 clock0))) with (ticks (S k2) clock0).
  split; [reflexivity|]. split; [exact I2|].
  destruct (tick_cases k2) as [E | (E & H6 & Et & Es & Em & Ep)];
    cbv zeta in *; rewrite E.
  - rewrite lcd_exec_shown, render_cells by apply ticks_in_range.
    rewrite paint_app.
    pose proof (clock_text_length (ticks (S k2) clock0)) as LT.
    pose proof (secPwr_text_length _ (ticks_in_range (S k2))) as LD.
    set (T := clock_text (ticks (S k2) clock0)) in *.
    set (D := itoa10 (int16 (secPwr (ticks (S k2) clock0)))) in *.
    split; [intros _; split|split].
    + intros j Hj. rewrite !paint_typed.
      destruct (Z.eqb_spec 0 0); [|lia]. cbn [andb].
      destruct (Z.leb_spec 12 (1 + Z.of_nat j)); [lia|]. cbn [andb].
      destruct (Z.leb_spec 1 (1 + Z.of_nat j)); [|lia].
      destruct (Z.ltb_spec (1 + Z.of_nat j) (1 + Z.of_nat (List.length T)));
        [|lia].
      cbn [andb]. f_equal. lia.
    + intros j Hj. rewrite paint_typed.
      destruct (Z.eqb_spec 0 0); [|lia]. cbn [andb].
      destruct (Z.leb_spec 12 (12 + Z.of_nat j)); [|lia].
      destruct (Z.ltb_spec (12 + Z.of_nat j) (12 + Z.of_nat (List.length D)));
        [|lia].
      cbn [andb]. f_equal. lia.
    + intros x Hx. rewrite !paint_typed.
      change (1 =? 0) with false. cbn [andb]. now apply I4.
    + intros x y R. rewrite !paint_typed. rewrite <- (I5 x y R).
      unfold region in R.
      destruct (Z.eqb_spec y 0); cbn [andb] in *; [|reflexivity].
      destruct (Z.eqb_spec y 1); [lia|]. cbn [andb orb] in R.
      rewrite orb_false_r in R.
      destruct (Z.leb_spec 1 x), (Z.leb_spec x 15); try discriminate R;
        destruct (Z.leb_spec 12 x),
          (Z.ltb_spec x (12 + Z.of_nat (List.length D))),
          (Z.ltb_spec x (1 + Z.of_nat (List.length T)));
        cbn [andb]; try lia; reflexivity.
  - cbn [calls silent lcd_exec].
    split; [|split; assumption].
    intros H. specialize (I3 (H6 H)).
    unfold clock_text in *. rewrite Et, Es, Em, Ep. exact I3.
Qed.

Lemma bar_ticks_range (k : nat) (b : bar) :
  bar_ticks k bar0 = Some b -> 0 <= prgrsBarLgth b <= 5.
Proof.
  destruct k as [|k].
  - intros [= <-]. simpl. lia.
  - rewrite bar_ticks_eq. intros [= <-]. cbn [prgrsBarLgth].
    assert (0 <= Z.of_nat k mod 5 < 5) by (apply Z.mod_pos_bound; lia). lia.
Qed.

Lemma step_TIM1 (l0 : lcd) (k1 k2 : nat) (sys : system) :
  invariant l0 k1 k2 sys ->
  exists sys' : system,
    interrupt TIM1 sys = Some sys' /\ invariant l0 (S k1) k2 sys'.
Proof.
  intros (I1 & I2 & I3 & I4 & I5).
  pose proof (bar_ticks_range _ _ I2) as Hb.
  pose proof (TIMER1_OVF_vect_eq _ Hb) as E. cbv zeta in E.
  pose proof (bar_ticks_eq k1) as E'.
  change (bar_ticks (S k1) bar0)
    with (match bar_ticks k1 bar0 with
          | Some st' => option_map fst (TIMER1_OVF_vect st')
          | None => None
          end) in E'.
  rewrite I2, E in E'. cbn [option_map fst] in E'.
  injection E' as E' _.
  assert (Hr : 0 <= Z.of_nat k1 mod 5 < 5) by (apply Z.mod_pos_bound; lia).
  rewrite E' in E. clear E'.
  set (len := Z.of_nat k1 mod 5 + 1) in *.
  unfold interrupt, ISR. rewrite E. eexists. split; [reflexivity|].
  unfold invariant. cbn [mem display stopwatch progress calls].
  split; [exact I1|]. split.
  { change (bar_ticks (S k1) bar0)
      with (match bar_ticks k1 bar0 with
            | Some st' => option_map fst (TIMER1_OVF_vect st')
            | None => None
            end).
    rewrite I2, E. reflexivity. }
  assert (P : forall x y : Z,
             shown (lcd_exec
                      (Gotoxy 0 1 :: repeat (Putc (chr 255)) (Z.to_nat len))
                      (display sys)) x y =
             if (y =? 1) && (0 <=? x) && (x <? len)
             then Some (chr 255) else shown (display sys) x y).
  { intros x y. rewrite lcd_exec_shown. cbn [cells].
    rewrite typed_repeat, paint_typed, repeat_length, Z2Nat.id by lia.
    rewrite Z.add_0_l, Z.sub_0_r.
    destruct ((y =? 1) && (0 <=? x) && (x <? len)) eqn:C; [|reflexivity].
    apply nth_error_repeat. lia. }
  split; [|split].
  - intros H. destruct (I3 H) as [S1 S2].
    split; intros j Hj; rewrite P; change (0 =? 1) with false; cbn [andb];
      [apply S1 | apply S2]; assumption.
  - intros x Hx. rewrite P. change (1 =? 1) with true. cbn [andb].
    destruct (Z.leb_spec 0 x); [|lia]. cbn [andb].
    destruct (Z.ltb_spec x len); [reflexivity|].
    apply I4. unfold len in *. Z.to_euclidean_division_equations. lia.
  - intros x y R. rewrite P, <- (I5 x y R). unfold region in R.
    destruct (Z.eqb_spec y 1); cbn [andb]; [|reflexivity].
    destruct (Z.eqb_spec y 0); [lia|]. cbn [andb orb] in R.
    destruct (Z.leb_spec 0 x), (Z.leb_spec x 4), (Z.ltb_spec x len);
      cbn [andb] in *; try discriminate R; try reflexivity; lia.
Qed.

(** Any sequence of interrupts runs to its end and keeps the invariant. *)
Lemma run_invariant (l0 : lcd) (sched : list timer) :
  forall (k1 k2 : nat) (sys : system),
    invariant l0 k1 k2 sys ->
    exists sys' : system,
      run sched sys = Some sys' /\
      invariant l0 (k1 + fired TIM1 sched) (k2 + fired TIM2 sched) sys'.
Proof.
  induction sched as [|t sched IH]; intros k1 k2 sys I.
  - exists sys. cbn [run fired]. rewrite !Nat.add_0_r. now split.
  - destruct t; cbn [run fired].
    + destruct (step_TIM1 _ _ _ _ I) as (sys1 & -> & I').
      rewrite Nat.add_succ_r. apply (IH (S k1) k2 sys1 I').
    + destruct (step_TIM2 _ _ _ _ I) as (sys1 & -> & I').
      rewrite Nat.add_succ_r. apply (IH k1 (S k2) sys1 I').
Qed.

Lemma invariant_reset (l0 : lcd) :
  invariant l0 0 0 (reset l0).
Proof.
  unfold invariant. cbn [mem display stopwatch progress].
  repeat split; try reflexivity; lia.
Qed.

Lemma run_reset (l0 : lcd) (sched : list timer) :
  exists sys : system,
    run sched (reset l0) = Some sys /\
    invariant l0 (fired TIM1 sched) (fired TIM2 sched) sys.
Proof. apply (run_invariant l0 sched 0 0), invariant_reset. Qed.

Lemma run_app (a b : list timer) (sys : system) :
  run (a ++ b) sys =
  match run a sys with Some sys' => run b sys' | None => None end.
Proof.
  revert sys. induction a as [|t a IH]; intros sys; cbn [run app];
    [reflexivity|].
  destruct (interrupt t sys); [apply IH | reflexivity].
Qed.


(** X9. After any sequence of interrupts from reset with at least six
    stopwatch interrupts, row 0 of the display shows the current statics of
    the stopwatch: their text from column 1 and the digits of [secPwr] from
    column 12.  The progress-bar interrupts in between and the stopwatch
    invocations that do not update leave this in place. *)
Theorem display_shows_stopwatch (l0 : lcd) (sched : list timer) :
  (6 <= fired TIM2 sched)%nat ->
  exists sys : system,
    run sched (reset l0) = Some sys /\
    shows (shown (display sys)) 1 0 (clock_text (stopwatch (mem sys))) /\
    shows (shown (display sys)) 12 0
          (itoa10 (int16 (secPwr (stopwatch (mem sys))))).
Proof.
  intros H. destruct (run_reset l0 sched) as (sys & R & _ & _ & I3 & _).
  exists sys. split; [exact R|]. exact (I3 H).
Qed.

Lemma display_shows_stopwatch_witness :
  exists sys : system,
    run [TIM2; TIM1; TIM2; TIM2; TIM2; TIM1; TIM2; TIM2; TIM2]
        (reset (mkLcd 0 0 (fun _ _ => None))) = Some sys /\
    shows (shown (display sys)) 1 0 (clock_text (stopwatch (mem sys))) /\
    shows (shown (display sys)) 12 0
          (itoa10 (int16 (secPwr (stopwatch (mem sys))))).
Proof.
  apply (display_shows_stopwatch (mkLcd 0 0 (fun _ _ => None))
           [TIM2; TIM1; TIM2; TIM2; TIM2; TIM1; TIM2; TIM2; TIM2]).
  simpl. lia.
Defined.

(** X10. The progress bar is never cleared: after any sequence of
    interrupts from reset with at least five progress-bar interrupts,
    columns 0 to 4 of row 1 all show the filled block, whatever the current
    bar length is. *)
Theorem progress_bar_stays_full (l0 : lcd) (sched : list timer) :
  (5 <= fired TIM1 sched)%nat ->
  exists sys : system,
    run sched (reset l0) = Some sys /\
    shows (shown (display sys)) 0 1 (repeat (chr 255) 5) /\
    1 <= prgrsBarLgth (progress (mem sys)) <= 5.
Proof.
  intros H. destruct (run_reset l0 sched) as (sys & R & _ & I2 & _ & I4 & _).
  exists sys. split; [exact R|]. split.
  - intros j Hj. rewrite repeat_length in Hj.
    rewrite nth_error_repeat by assumption. apply I4. lia.
  - destruct (fired TIM1 sched) as [|k]; [lia|].
    rewrite bar_ticks_eq in I2. injection I2 as <-. cbn [prgrsBarLgth].
    assert (0 <= Z.of_nat k mod 5 < 5) by (apply Z.mod_pos_bound; lia). lia.
Qed.

Lemma progress_bar_stays_full_witness :
  exists sys : system,
    run [TIM1; TIM1; TIM1; TIM1; TIM1; TIM1]
        (reset (mkLcd 0 0 (fun _ _ => None))) = Some sys /\
    shows (shown (display sys)) 0 1 (repeat (chr 255) 5) /\
    1 <= prgrsBarLgth (progress (mem sys)) <= 5.
Proof.
  apply (progress_bar_stays_full (mkLcd 0 0 (fun _ _ => None))
           [TIM1; TIM1; TIM1; TIM1; TIM1; TIM1]).
  simpl. lia.
Defined.

(** X11. The handlers write only to columns 1 to 15 of row 0 and columns 0
    to 4 of row 1: after [main] and any sequence of interrupts, every other
    cell of the display is as [main] left it, and the four custom glyphs
    that [main] wrote to columns 7 to 10 of row 1 are still there. *)
Theorem display_outside_regions_kept
  (LCD_DISP_ON LCD_CGRAM LCD_DDRAM : Z) (l : lcd) (sched : list timer) :
  exists sys0 sys : system,
    booted LCD_DISP_ON LCD_CGRAM LCD_DDRAM l = Some sys0 /\
    run sched sys0 = Some sys /\
    (forall x y : Z,
       region x y = false ->
       shown (display sys) x y = shown (display sys0) x y) /\
    shows (shown (display sys)) 7 1 [chr 0; chr 1; chr 2; chr 3].
Proof.
  unfold booted. rewrite main_eq.
  set (l0 := lcd_exec _ l).
  destruct (run_reset l0 sched) as (sys & R & _ & _ & _ & _ & I5).
  exists (reset l0), sys. split; [reflexivity|]. split; [exact R|].
  split; [exact I5|].
  intros j Hj. rewrite I5.
  - unfold l0. rewrite lcd_exec_shown. cbn [calls cells].
    assert (C : forall x y,
               cells x y (map Data customChar ++
                          Command (Z.shiftl 1 LCD_DDRAM) ::
                          after_upload ++ [Sei]) =
               typed 7 1 [chr 0; chr 1; chr 2; chr 3])
      by (intros x y; reflexivity).
    rewrite C, paint_typed.
    cbn [List.length] in *.
    destruct j as [|[|[|[|j]]]]; try lia; reflexivity.
  - cbn [List.length] in Hj. unfold region.
    destruct j as [|[|[|[|j]]]]; try lia; reflexivity.
Qed.

(** X12. The digits of [secPwr] are not cleared either: when a stopwatch
    interrupt takes the seconds from 59 to 0, it writes the single digit 0
    to column 12 and columns 13 to 15 keep the digits 481 of the 3481 shown
    before, so that the display reads 0481. *)
Theorem secPwr_digits_left_over (l0 : lcd) (sched : list timer) :
  seconds (ticks (fired TIM2 sched) clock0) = 59 ->
  seconds (ticks (S (fired TIM2 sched)) clock0) = 0 ->
  exists sys : system,
    run (sched ++ [TIM2]) (reset l0) = Some sys /\
    secPwr (stopwatch (mem sys)) = 0 /\
    shows (shown (display sys)) 12 0 (list_ascii_of_string "0481").
Proof.
  intros H59 H0.
  destruct (run_reset l0 sched) as (sys & R & I1 & I2 & I3 & I4 & I5).
  set (k := fired TIM2 sched) in *.
  assert (K6 : (6 <= k)%nat).
  { rewrite ticks_clock_at in H59. cbn [clock_at seconds] in H59.
    Z.to_euclidean_division_equations. lia. }
  destruct (I3 K6) as [_ SD]. rewrite I1 in SD.
  pose proof (ticks_in_range k) as (_ & _ & _ & _ & Pk).
  rewrite Pk, H59 in SD.
  pose proof (ticks_in_range (S k)) as (_ & _ & _ & _ & Pk').
  rewrite H0 in Pk'.
  rewrite run_app, R. cbn [run]. rewrite interrupt_TIM2.
  eexists. split; [reflexivity|].
  cbn [mem display stopwatch]. rewrite I1.
  change (fst (TIMER2_OVF_vect (ticks k clock0))) with (ticks (S k) clock0).
  split; [exact Pk'|].
  destruct (tick_cases k) as [E | (_ & _ & _ & Es & _)]; cbv zeta in *;
    [|lia].
  rewrite E, lcd_exec_shown, render_cells by apply ticks_in_range.
  rewrite paint_app, Pk'.
  pose proof (clock_text_length (ticks (S k) clock0)) as LT.
  set (T := clock_text (ticks (S k) clock0)) in *.
  intros j Hj. cbn [list_ascii_of_string List.length] in Hj.
  rewrite !paint_typed.
  destruct j as [|j].
  - reflexivity.
  - change (itoa10 (int16 (0 * 0))) with ["0"%char]. cbn [List.length].
    destruct (Z.eqb_spec 0 0); [|lia]. cbn [andb].
    destruct (Z.ltb_spec (12 + Z.of_nat (S j)) (12 + Z.of_nat 1)); [lia|].
    rewrite andb_false_r.
    destruct (Z.ltb_spec (12 + Z.of_nat (S j)) (1 + Z.of_nat (List.length T)));
      [lia|].
    rewrite andb_false_r.
    rewrite (SD (S j)) by (simpl; lia).
    destruct j as [|[|[|j]]]; try (simpl in Hj; lia); reflexivity.
Qed.

Lemma secPwr_digits_left_over_witness :
  exists sys : system,
    run (repeat TIM2 3599 ++ [TIM2]) (reset (mkLcd 0 0 (fun _ _ => None))) =
    Some sys /\
    secPwr (stopwatch (mem sys)) = 0 /\
    shows (shown (display sys)) 12 0 (list_ascii_of_string "0481").
Proof.
  apply (secPwr_digits_left_over (mkLcd 0 0 (fun _ _ => None))
           (repeat TIM2 3599)); vm_compute; reflexivity.
Defined.
